(** * Session authentication middleware of starlite-sessions

    A shallow embedding of [starlite_sessions/session_auth.py]: the
    [SessionAuth] configuration, the [MiddlewareWrapper] that assembles the
    middleware stack on its first call, and
    [SessionAuthMiddleware.authenticate_request].

    Python objects live in a heap indexed by locations, the ASGI scope of a
    connection is a dictionary from strings to values, and a coroutine is a
    function from the Python state to an outcome (a value or a raised
    exception), the state it leaves, and the trace of the calls it made to
    the user-supplied [retrieve_user_handler]. *)

From stdpp Require Import base gmap strings list fin_maps.

Open Scope string_scope.
Open Scope Z_scope.
Open Scope list_scope.

(** ** Exceptions and responses *)

Inductive exn :=
  | NotAuthorizedException (detail : string)
  | AssertionError (msg : string)
  | KeyError (key : string)
  | AttributeError (attr : string)
  | HTTPException (status : Z) (detail : string)
  | PyException (cls : string) (detail : string).

Inductive Cookie :=
  | CookieValue (data : string)
  | ClearingCookie.

Record Response := {
  status_code : Z;
  body : string;
  debug_detail : option string;
  session_cookie : option Cookie
}.

Definition ExceptionHandler := exn -> Response.

(** The registry of a hosting application, seen through its lookup: the
    handler registered for the condition an exception stands for, if any. *)
Definition ExceptionHandlersMap := exn -> option ExceptionHandler.

(** The Python literal [{}] as a registry. *)
Definition no_exception_handlers : ExceptionHandlersMap := fun _ => None.

(** The two attributes [MiddlewareWrapper.__call__] reads off the hosting
    application. *)
Record Starlite := {
  exception_handlers : option ExceptionHandlersMap;
  debug : bool
}.

(** ** Values, objects and the heap *)

Definition loc := positive.

(** [VEmpty] is the class [starlite.types.Empty], used as a sentinel and
    compared with [is]; [VRef] points to a mutable object. *)
Inductive pyval :=
  | VNone
  | VEmpty
  | VBool (b : bool)
  | VInt (z : Z)
  | VStr (s : string)
  | VRef (l : loc)
  | VApp (a : Starlite).

(** [truth] of an instance is what its [__bool__]/[__len__] protocol answers
    ([true] for a class that defines neither). *)
Inductive pyobj :=
  | ODict (items : list (string * pyval))
  | OList (elems : list pyval)
  | OInstance (cls : string) (truth : bool).

Record pystate := {
  scope : gmap string pyval;
  heap : gmap loc pyobj
}.

Definition obj_truthy (o : pyobj) : bool :=
  match o with
  | ODict items => negb (bool_decide (items = []))
  | OList elems => negb (bool_decide (elems = []))
  | OInstance _ truth => truth
  end.

(** Python's truth value testing, as [not x] and [if x] use it. *)
Definition truthy (h : gmap loc pyobj) (v : pyval) : bool :=
  match v with
  | VNone => false
  | VEmpty => true
  | VBool b => b
  | VInt z => negb (z =? 0)
  | VStr s => negb (String.eqb s "")
  | VRef l => match h !! l with Some o => obj_truthy o | None => true end
  | VApp _ => true
  end.

(** [x is Empty] *)
Definition is_Empty (v : pyval) : bool :=
  match v with VEmpty => true | _ => false end.

(** ** Coroutines: state, exceptions, and the trace of resolver calls *)

Inductive outcome (A : Type) :=
  | Return (a : A)
  | Raise (e : exn).
Arguments Return {A} a.
Arguments Raise {A} e.

(** A run yields the outcome, the state left behind, and the arguments of
    the calls made to the identity resolver, in order. *)
Definition coroutine (A : Type) : Type :=
  pystate -> outcome A * pystate * list pyval.

Definition ret {A} (a : A) : coroutine A := fun st => (Return a, st, []).

Definition raise {A} (e : exn) : coroutine A := fun st => (Raise e, st, []).

Definition bind {A B} (m : coroutine A) (k : A -> coroutine B) : coroutine B :=
  fun st =>
    match m st with
    | (Return a, st1, t1) =>
        match k a st1 with
        | (r, st2, t2) => (r, st2, t1 ++ t2)
        end
    | (Raise e, st1, t1) => (Raise e, st1, t1)
    end.

#[global] Instance coroutine_ret : MRet coroutine := @ret.
#[global] Instance coroutine_bind : MBind coroutine := fun A B k m => bind m k.

(** [scope[key] = v] *)
Definition scope_set (key : string) (v : pyval) : coroutine unit :=
  fun st => (Return tt, {| scope := <[key := v]> (scope st); heap := heap st |}, []).

Definition get_heap : coroutine (gmap loc pyobj) :=
  fun st => (Return (heap st), st, []).

(** [not x] *)
Definition py_not (v : pyval) : coroutine bool :=
  h ← get_heap; mret (negb (truthy h v)).

(** The user-supplied resolver: it receives the session object and may read
    and mutate the heap, return any value, or raise. It has no handle on the
    scope of the connection. *)
Definition RetrieveUserHandler : Type :=
  pyval -> gmap loc pyobj -> outcome pyval * gmap loc pyobj.

(** [await handler(arg)]: the call is recorded in the trace. *)
Definition await_handler (handler : RetrieveUserHandler) (arg : pyval) : coroutine pyval :=
  fun st =>
    match handler arg (heap st) with
    | (r, h') => (r, {| scope := scope st; heap := h' |}, [arg])
    end.

(** [HTTPConnection.session] (Starlette): the property asserts that the scope
    has a ["session"] entry and returns it. The session middleware of the
    assembled stack always sets that entry before the connection is read. *)
Definition connection_session : coroutine pyval :=
  fun st =>
    match scope st !! "session" with
    | Some v => (Return v, st, [])
    | None =>
        (Raise (AssertionError "SessionMiddleware must be installed to access request.session"),
         st, [])
    end.

Record AuthenticationResult := {
  user : pyval;
  auth : pyval
}.

(** ** [SessionAuthMiddleware.authenticate_request] *)

Definition authenticate_request (retrieve_user_handler : RetrieveUserHandler)
  : coroutine AuthenticationResult :=
  no_session ← (s ← connection_session;
                falsy ← py_not s;
                if falsy : bool then mret true
                else s' ← connection_session; mret (is_Empty s'));
  if no_session : bool then
    (* the assignment of 'Empty' forces the session middleware to clear session data. *)
    scope_set "session" VEmpty;;
    raise (NotAuthorizedException "no session data found")
  else
    session ← connection_session;
    user ← await_handler retrieve_user_handler session;
    no_user ← py_not user;
    if no_user : bool then
      scope_set "session" VEmpty;;
      raise (NotAuthorizedException "no user correlating to session found")
    else
      session' ← connection_session;
      mret {| user := user; auth := session' |}.

(** ** The [SessionAuth] configuration *)

(** The part of the configuration inherited from [SessionCookieConfig]. *)
Record SessionCookieConfig := {
  secret : string;
  key : string
}.

(** [Union[str, List[str]]] *)
Inductive exclude_patterns :=
  | ExcludeStr (pattern : string)
  | ExcludeList (patterns : list string).

Record SessionAuth := {
  cookie_config : SessionCookieConfig;
  retrieve_user_handler : RetrieveUserHandler;
  exclude : option exclude_patterns;
  openapi_security_scheme_name : string
}.

(** [AsyncCallable(value)] makes a sync or async callable awaitable; an
    awaited call is a call here, so the wrapped callable is the callable. *)
Definition AsyncCallable (value : RetrieveUserHandler) : RetrieveUserHandler := value.

Definition validate_retrieve_user_handler (value : RetrieveUserHandler)
  : RetrieveUserHandler := AsyncCallable value.

(** The constructor: [exclude] and [openapi_security_scheme_name] are keyword
    arguments with the defaults of the class body, and the validator runs on
    [retrieve_user_handler]. *)
Definition SessionAuth_init (base : SessionCookieConfig)
    (handler : RetrieveUserHandler)
    (exclude_kw : option exclude_patterns)
    (scheme_name_kw : option string) : SessionAuth :=
  {| cookie_config := base;
     retrieve_user_handler := validate_retrieve_user_handler handler;
     exclude := exclude_kw;
     openapi_security_scheme_name := default "sessionCookie" scheme_name_kw |}.

(** *** OpenAPI metadata *)

Record SecurityScheme := {
  scheme_type : string;
  scheme_name : string;
  security_scheme_in : string;
  scheme_description : string
}.

Record Components := {
  securitySchemes : gmap string SecurityScheme
}.

Definition SecurityRequirement := gmap string (list string).

Definition openapi_components (self : SessionAuth) : Components :=
  {| securitySchemes :=
       {[ openapi_security_scheme_name self :=
            {| scheme_type := "apiKey";
               scheme_name := "Set-Cookie";
               security_scheme_in := "cookie";
               scheme_description := "Session cookie authentication." |} ]} |}.

Definition security_requirement (self : SessionAuth) : SecurityRequirement :=
  {[ openapi_security_scheme_name self := [] ]}.

(** ** The middleware stack *)

(** An ASGI application is either an opaque next handler or one of the three
    middleware objects the wrapper builds, each holding the application it
    wraps and the arguments it was constructed with. *)
Inductive ASGIApp :=
  | ASGIHandler (handler : coroutine Response)
  | SessionAuthMiddleware (app : ASGIApp) (exclude : option exclude_patterns)
      (retrieve_user_handler : RetrieveUserHandler)
  | ExceptionHandlerMiddleware (app : ASGIApp)
      (exception_handlers : ExceptionHandlersMap) (debug : bool)
  | SessionMiddleware (app : ASGIApp) (config : SessionAuth).

(** *** The collaborators of the hosting framework

    The pattern matcher of the router and the codec of the session store are
    opaque: every statement below holds for all of them. *)

Inductive decoded :=
  | DecodedMapping (items : list (string * pyval))
  | DecodedEmpty.

Class Framework := {
  path_matches : string -> string -> bool;
  load_data : SessionCookieConfig -> gmap string pyval -> decoded;
  dump_data : SessionCookieConfig -> list (string * pyval) -> string
}.

(** Modelled from the spec: the status an exception carries. A rejection is
    401-class ([HTTP_401_UNAUTHORIZED] in the tests), an HTTP exception has
    its own status, anything else is an internal error. *)
Definition exn_status_code (e : exn) : Z :=
  match e with
  | NotAuthorizedException _ => 401
  | HTTPException status _ => status
  | _ => 500
  end.

Definition exn_detail (e : exn) : string :=
  match e with
  | NotAuthorizedException d | AssertionError d | KeyError d
  | AttributeError d | HTTPException _ d | PyException _ d => d
  end.

(** Modelled from the spec: the default handler of the Exception-to-Response
    Translator, which is starlite's [ExceptionHandlerMiddleware] and not part
    of this repository. A rejection gets the default "not authorized"
    response; an unexpected fault gets diagnostic detail in debug mode and a
    generic message otherwise. *)
Definition default_http_exception_handler (debug : bool) (e : exn) : Response :=
  let status := exn_status_code e in
  if status =? 500 then
    {| status_code := status;
       body := "Internal Server Error";
       debug_detail := if debug then Some (exn_detail e) else None;
       session_cookie := None |}
  else
    {| status_code := status;
       body := exn_detail e;
       debug_detail := None;
       session_cookie := None |}.

(** Modelled from the spec: the response the Translator makes of an
    exception, with the handler the registry holds for it and with the
    default handler when it holds none. *)
Definition exception_response
    (exception_handlers : ExceptionHandlersMap) (debug : bool) (e : exn) : Response :=
  let handler :=
    default (default_http_exception_handler debug) (exception_handlers e) in
  handler e.

(** Modelled from the spec: [ExceptionHandlerMiddleware.__call__] (starlite).
    Whatever the wrapped application raises becomes a response. *)
Definition ExceptionHandlerMiddleware_call
    (exception_handlers : ExceptionHandlersMap) (debug : bool)
    (app : coroutine Response) : coroutine Response :=
  fun st =>
    match app st with
    | (Return r, st', t) => (Return r, st', t)
    | (Raise e, st', t) =>
        (Return (exception_response exception_handlers debug e), st', t)
    end.

Definition exclude_list (e : exclude_patterns) : list string :=
  match e with
  | ExcludeStr pattern => [pattern]
  | ExcludeList patterns => patterns
  end.

Section Stack.
Context `{!Framework}.

(** Modelled from the spec: the Exclusion Matcher of starlite's
    [AbstractAuthenticationMiddleware]: the path of the request matches one
    of the configured patterns. *)
Definition should_bypass (exclude : option exclude_patterns)
    (sc : gmap string pyval) : bool :=
  match exclude, sc !! "path" with
  | Some e, Some (VStr path) =>
      existsb (fun pattern => path_matches pattern path) (exclude_list e)
  | _, _ => false
  end.

(** Modelled from the spec: [AbstractAuthenticationMiddleware.__call__]
    (starlite), the caller of [authenticate_request]: unless the request is
    excluded it authenticates, attaches [user] and [auth] to the scope, and
    in both cases calls the next application. *)
Definition AbstractAuthenticationMiddleware_call
    (exclude : option exclude_patterns)
    (authenticate : coroutine AuthenticationResult)
    (app : coroutine Response) : coroutine Response :=
  fun st =>
    if should_bypass exclude (scope st) then app st
    else
      (auth_result ← authenticate;
       scope_set "user" (user auth_result);;
       scope_set "auth" (auth auth_result);;
       app) st.

(** Modelled from the spec: the Session Store at the response boundary,
    [encode(SessionMapping|Empty) -> token|clear-signal]. *)
Definition session_token (config : SessionCookieConfig) (st : pystate)
  : option Cookie :=
  match scope st !! "session" with
  | Some VEmpty => Some ClearingCookie
  | Some (VRef l) =>
      match heap st !! l with
      | Some (ODict items) => Some (CookieValue (dump_data config items))
      | _ => None
      end
  | _ => None
  end.

Definition with_session_cookie (c : option Cookie) (r : Response) : Response :=
  match c with
  | Some _ =>
      {| status_code := status_code r; body := body r;
         debug_detail := debug_detail r; session_cookie := c |}
  | None => r
  end.

(** Modelled from the spec: the Session Store at the request boundary,
    [decode(token) -> SessionMapping|Empty]; a decoded mapping is a fresh
    dictionary object. *)
Definition attach_session (config : SessionCookieConfig) : coroutine unit :=
  fun st =>
    match load_data config (scope st) with
    | DecodedEmpty => scope_set "session" VEmpty st
    | DecodedMapping items =>
        let l := fresh (dom (heap st)) in
        (Return tt,
         {| scope := <["session" := VRef l]> (scope st);
            heap := <[l := ODict items]> (heap st) |},
         [])
    end.

(** Modelled from the spec: the Session Store re-encodes the session at
    response time, from what the scope holds when the response starts. *)
Definition send_with_session (config : SessionCookieConfig) (response : Response)
  : coroutine Response :=
  fun st => (Return (with_session_cookie (session_token config st) response), st, []).

(** Modelled from the spec: [SessionMiddleware.__call__] (starlite). *)
Definition SessionMiddleware_call (config : SessionCookieConfig)
    (app : coroutine Response) : coroutine Response :=
  attach_session config;;
  response ← app;
  send_with_session config response.

(** Calling an application of the stack. *)
Fixpoint run (a : ASGIApp) : coroutine Response :=
  match a with
  | ASGIHandler handler => handler
  | SessionAuthMiddleware app exclude retrieve_user_handler =>
      AbstractAuthenticationMiddleware_call exclude
        (authenticate_request retrieve_user_handler) (run app)
  | ExceptionHandlerMiddleware app exception_handlers debug =>
      ExceptionHandlerMiddleware_call exception_handlers debug (run app)
  | SessionMiddleware app config =>
      SessionMiddleware_call (cookie_config config) (run app)
  end.

(** ** [MiddlewareWrapper] *)

Record MiddlewareWrapper := {
  app : ASGIApp;
  has_wrapped_middleware : bool;
  config : SessionAuth
}.

(** [MiddlewareWrapper.__init__] *)
Definition MiddlewareWrapper_init (app : ASGIApp) (config : SessionAuth)
  : MiddlewareWrapper :=
  {| app := app; has_wrapped_middleware := false; config := config |}.

(** [SessionAuth.middleware]: [DefineMiddleware(MiddlewareWrapper, config=self)],
    to be applied to the next ASGI handler. *)
Definition middleware (self : SessionAuth) : ASGIApp -> MiddlewareWrapper :=
  fun app => MiddlewareWrapper_init app self.

(** [self.app = app] and [self.has_wrapped_middleware = flag] *)
Definition set_app (app' : ASGIApp) (self : MiddlewareWrapper) : MiddlewareWrapper :=
  {| app := app';
     has_wrapped_middleware := has_wrapped_middleware self;
     config := config self |}.

Definition set_has_wrapped_middleware (flag : bool) (self : MiddlewareWrapper)
  : MiddlewareWrapper :=
  {| app := app self; has_wrapped_middleware := flag; config := config self |}.

(** [MiddlewareWrapper.__call__]: the object [self] as the call leaves it is
    returned next to the run of the request. [scope["app"]] raises [KeyError]
    on a scope without that entry, and reading [exception_handlers] off a
    value that is not the application raises [AttributeError]; in both cases
    nothing has been assigned yet. [x or {}] is the registry, or the empty
    one when the application has none. *)
Definition MiddlewareWrapper_call (self : MiddlewareWrapper) (st : pystate)
  : (outcome Response * pystate * list pyval) * MiddlewareWrapper :=
  if negb (has_wrapped_middleware self) then
    match scope st !! "app" with
    | None => ((Raise (KeyError "app"), st, []), self)
    | Some starlite_app =>
        let auth_middleware :=
          SessionAuthMiddleware (app self) (exclude (config self))
            (retrieve_user_handler (config self)) in
        match starlite_app with
        | VApp a =>
            let exception_middleware :=
              ExceptionHandlerMiddleware auth_middleware
                (default no_exception_handlers (exception_handlers a)) (debug a) in
            let self := set_app (SessionMiddleware exception_middleware (config self)) self in
            let self := set_has_wrapped_middleware true self in
            (run (app self) st, self)
        | _ => ((Raise (AttributeError "exception_handlers"), st, []), self)
        end
    end
  else (run (app self) st, self).

(** The wrapper serving a sequence of requests, one after the other. *)
Fixpoint serve (self : MiddlewareWrapper) (requests : list pystate)
  : list (outcome Response * pystate * list pyval) * MiddlewareWrapper :=
  match requests with
  | [] => ([], self)
  | st :: rest =>
      match MiddlewareWrapper_call self st with
      | (r, self') =>
          match serve self' rest with
          | (rs, self'') => (r :: rs, self'')
          end
      end
  end.

End Stack.

(** The stack [MiddlewareWrapper.__call__] builds over [next] for the hosting
    application [a]. *)
Definition assembled (cfg : SessionAuth) (a : Starlite) (next : ASGIApp) : ASGIApp :=
  SessionMiddleware
    (ExceptionHandlerMiddleware
       (SessionAuthMiddleware next (exclude cfg) (retrieve_user_handler cfg))
       (default no_exception_handlers (exception_handlers a)) (debug a))
    cfg.

Definition with_scheme_name (name : string) (cfg : SessionAuth) : SessionAuth :=
  {| cookie_config := cookie_config cfg;
     retrieve_user_handler := retrieve_user_handler cfg;
     exclude := exclude cfg;
     openapi_security_scheme_name := name |}.

Definition set_session (v : pyval) (st : pystate) : pystate :=
  {| scope := <["session" := v]> (scope st); heap := heap st |}.

(** ** The fixtures of [tests/test_sessions.py] *)

Module Tests.

Definition user_id : string := "7c9e6679".

Definition user_loc : loc := 1%positive.

(** [user_instance = User(id=..., name=..., email=...)] *)
Definition user_instance : pyval := VRef user_loc.

Definition initial_heap : gmap loc pyobj := {[ user_loc := OInstance "User" true ]}.

Fixpoint dict_get (k : string) (items : list (string * pyval)) : option pyval :=
  match items with
  | [] => None
  | (k', v) :: rest => if String.eqb k k' then Some v else dict_get k rest
  end.

Definition is_str (s : string) (v : pyval) : bool :=
  match v with VStr s' => String.eqb s s' | _ => false end.

(** [retrieve_user_handler] of the tests: [session_data["id"]] is looked up
    (a [KeyError] when missing) and compared with the id of the user. *)
Definition retrieve_user_handler : RetrieveUserHandler :=
  fun session_data h =>
    match session_data with
    | VRef l =>
        match h !! l with
        | Some (ODict items) =>
            match dict_get "id" items with
            | Some v =>
                if is_str user_id v then (Return user_instance, h)
                else (Return VNone, h)
            | None => (Raise (KeyError "id"), h)
            end
        | _ => (Raise (PyException "TypeError" "object is not subscriptable"), h)
        end
    | _ => (Raise (PyException "TypeError" "object is not subscriptable"), h)
    end.

(** [SessionAuth(secret=..., exclude=["login"], retrieve_user_handler=...)] *)
Definition session_auth : SessionAuth :=
  SessionAuth_init {| secret := "0123456789abcdef"; key := "session" |}
    retrieve_user_handler (Some (ExcludeList ["login"])) None.

(** The application of the test client: no handlers of its own, no debug. *)
Definition starlite_app : Starlite :=
  {| exception_handlers := None; debug := false |}.

(** An application that answers a rejection by sending the client to its
    login page. *)
Definition redirect_to_login : ExceptionHandlersMap :=
  fun e =>
    match e with
    | NotAuthorizedException _ =>
        Some (fun _ => {| status_code := 302; body := "/login";
                          debug_detail := None; session_cookie := None |})
    | _ => None
    end.

Definition redirecting_app : Starlite :=
  {| exception_handlers := Some redirect_to_login; debug := false |}.

(** [re.search] for a literal pattern. *)
Fixpoint contains (pattern s : string) : bool :=
  String.prefix pattern s
  || match s with
     | EmptyString => false
     | String _ rest => contains pattern rest
     end.

(** A codec for the fixtures: the token is the ["id"] entry of the mapping,
    carried in the ["cookie"] entry of the scope; the token ["null"] of a
    cleared cookie decodes to the Empty sentinel, and a request without a
    cookie gets an empty mapping. *)
Definition framework : Framework := {|
  path_matches := contains;
  load_data := fun _ sc =>
    match sc !! "cookie" with
    | Some (VStr token) =>
        if String.eqb token "null" then DecodedEmpty
        else DecodedMapping [("id", VStr token)]
    | _ => DecodedMapping []
    end;
  dump_data := fun _ items =>
    match dict_get "id" items with
    | Some (VStr token) => token
    | _ => ""
    end
|}.


(** [get_user_handler]: [return request.user] *)
Definition get_user_handler : coroutine Response :=
  fun st =>
    match scope st !! "user" with
    | Some _ =>
        (Return {| status_code := 200; body := "user"; debug_detail := None;
                   session_cookie := None |}, st, [])
    | None => (Raise (AssertionError "AuthenticationMiddleware must be installed"), st, [])
    end.

Definition response (status : Z) (content : string) : Response :=
  {| status_code := status; body := content; debug_detail := None;
     session_cookie := None |}.

(** [login_handler]: [request.set_session(data)], where [data] is the body
    of the request, a dictionary with the ["id"] the scope carries. *)
Definition login_handler : coroutine Response :=
  fun st =>
    match scope st !! "data" with
    | Some (VStr id) =>
        let l := fresh (dom (heap st)) in
        (Return (response 201 ""),
         {| scope := <["session" := VRef l]> (scope st);
            heap := <[l := ODict [("id", VStr id)]]> (heap st) |},
         [])
    | _ => (Raise (HTTPException 400 "Bad Request"), st, [])
    end.

(** [delete_user_handler]: [request.clear_session()] *)
Definition delete_user_handler : coroutine Response :=
  fun st => (Return (response 204 ""), set_session VEmpty st, []).

Definition is_method (m : string) (st : pystate) : bool :=
  match scope st !! "method" with Some v => is_str m v | None => false end.

Definition path_has_prefix (p : string) (st : pystate) : bool :=
  match scope st !! "path" with
  | Some (VStr path) => String.prefix p path
  | _ => false
  end.

(** [route_handlers=[login_handler, delete_user_handler, get_user_handler]] *)
Definition route_handlers : coroutine Response :=
  fun st =>
    if is_method "POST" st && path_has_prefix "/login" st then login_handler st
    else if is_method "DELETE" st && path_has_prefix "/user/" st then
      delete_user_handler st
    else if is_method "GET" st && path_has_prefix "/user/" st then
      get_user_handler st
    else (Return (response 404 "Not Found"), st, []).

Record client_request := {
  method : string;
  path : string;
  data : option string
}.

Definition client_scope (rq : client_request) (jar : option string)
  : gmap string pyval :=
  let sc : gmap string pyval :=
    {[ "app" := VApp starlite_app; "method" := VStr (method rq);
       "path" := VStr (path rq) ]} in
  let sc := match data rq with
            | Some id => <["data" := VStr id]> sc
            | None => sc
            end in
  match jar with
  | Some token => <["cookie" := VStr token]> sc
  | None => sc
  end.

(** What the cookie jar of the client holds after a response. *)
Definition update_jar (jar : option string) (r : Response) : option string :=
  match session_cookie r with
  | Some (CookieValue token) => Some token
  | Some ClearingCookie => None
  | None => jar
  end.

(** The test client: it sends the requests one after the other through the
    same wrapper, keeps the session cookie between them, and collects the
    status codes. *)
Fixpoint client (w : MiddlewareWrapper) (jar : option string)
    (h : gmap loc pyobj) (requests : list client_request) : list Z :=
  match requests with
  | [] => []
  | rq :: rest =>
      match @MiddlewareWrapper_call framework w
              {| scope := client_scope rq jar; heap := h |} with
      | ((Return r, st', _), w') =>
          status_code r :: client w' (update_jar jar r) (heap st') rest
      | ((Raise _, st', _), w') => 500 :: client w' jar (heap st') rest
      end
  end.

(** The requests of [test_authentication], in order. *)
Definition scenario : list client_request :=
  [ {| method := "GET"; path := "/user/7c9e6679"; data := None |};
    {| method := "POST"; path := "/login"; data := Some user_id |};
    {| method := "GET"; path := "/user/7c9e6679"; data := None |};
    {| method := "DELETE"; path := "/user/7c9e6679"; data := None |};
    {| method := "GET"; path := "/user/7c9e6679"; data := None |};
    {| method := "POST"; path := "/login"; data := Some "a1b2c3d4" |};
    {| method := "GET"; path := "/user/7c9e6679"; data := None |} ].

(** A scope in which the session middleware has attached the dictionary at
    location 2. *)
Definition in_session (a : Starlite) (items : list (string * pyval)) : pystate :=
  {| scope := {[ "app" := VApp a; "path" := VStr "/user/7c9e6679";
                 "session" := VRef 2%positive ]};
     heap := <[2%positive := ODict items]> initial_heap |}.

End Tests.

(** * Properties *)

(** ** The authentication decision procedure *)

Section Decision.
Implicit Types (handler : RetrieveUserHandler) (st : pystate) (s u : pyval).

(** The procedure, case by case: one read of the session decides between the
    assertion of [HTTPConnection.session], the first rejection, and the call
    to the resolver, whose outcome decides the rest. *)
Lemma authenticate_request_unfold handler st :
  authenticate_request handler st =
    match scope st !! "session" with
    | None =>
        (Raise (AssertionError "SessionMiddleware must be installed to access request.session"),
         st, [])
    | Some s =>
        if negb (truthy (heap st) s) || is_Empty s then
          (Raise (NotAuthorizedException "no session data found"),
           set_session VEmpty st, [])
        else
          match handler s (heap st) with
          | (Raise e, h') => (Raise e, {| scope := scope st; heap := h' |}, [s])
          | (Return u, h') =>
              if truthy h' u then
                (Return {| user := u; auth := s |},
                 {| scope := scope st; heap := h' |}, [s])
              else
                (Raise (NotAuthorizedException "no user correlating to session found"),
                 set_session VEmpty {| scope := scope st; heap := h' |}, [s])
          end
    end.
Proof.
  destruct st as [sc h].
  unfold authenticate_request, set_session, mbind, coroutine_bind, bind, mret,
    coroutine_ret, ret, py_not, get_heap, connection_session, await_handler,
    scope_set, raise; simpl.
  destruct (sc !! "session") as [s|] eqn:Hs; simpl; [|done].
  destruct (truthy h s) eqn:Ht; simpl; [|done].
  rewrite Hs; simpl. destruct (is_Empty s); simpl; [done|].
  rewrite Hs; simpl.
  destruct (handler s h) as [[u|e] h'] eqn:Hh; simpl; [|done].
  destruct (truthy h' u); simpl; [|done].
  by rewrite Hs.
Qed.

(** Without a session entry the property of the connection fails before
    anything is decided. *)
Lemma authenticate_request_without_entry handler st :
  scope st !! "session" = None ->
  authenticate_request handler st =
    (Raise (AssertionError "SessionMiddleware must be installed to access request.session"),
     st, []).
Proof. intros Hs. by rewrite authenticate_request_unfold, Hs. Qed.

Lemma is_Empty_true s : is_Empty s = true <-> s = VEmpty.
Proof. destruct s; simpl; split; congruence. Qed.

Lemma is_Empty_false s : s <> VEmpty -> is_Empty s = false.
Proof. destruct s; simpl; congruence. Qed.

Lemma authenticate_request_no_session handler st s :
  scope st !! "session" = Some s ->
  truthy (heap st) s = false \/ s = VEmpty ->
  authenticate_request handler st =
    (Raise (NotAuthorizedException "no session data found"), set_session VEmpty st, []).
Proof.
  intros Hs Hno. rewrite authenticate_request_unfold, Hs.
  destruct Hno as [-> | ->]; done.
Qed.

Lemma authenticate_request_resolves handler st s :
  scope st !! "session" = Some s ->
  truthy (heap st) s = true ->
  s <> VEmpty ->
  authenticate_request handler st =
    match handler s (heap st) with
    | (Raise e, h') => (Raise e, {| scope := scope st; heap := h' |}, [s])
    | (Return u, h') =>
        if truthy h' u then
          (Return {| user := u; auth := s |}, {| scope := scope st; heap := h' |}, [s])
        else
          (Raise (NotAuthorizedException "no user correlating to session found"),
           set_session VEmpty {| scope := scope st; heap := h' |}, [s])
    end.
Proof.
  intros Hs Ht Hne. rewrite authenticate_request_unfold, Hs, Ht.
  by rewrite (is_Empty_false _ Hne).
Qed.

(** C2 (amended): for every connection whose session entry is present and is
    not the Empty sentinel, a truthy (non-empty) mapping makes
    authenticate_request call the identity resolver exactly once, with that
    mapping, and the outcome is decided from what the resolver answered; a
    falsy mapping, such as a present but empty one, is rejected beforehand
    with "no session data found" and never reaches the resolver. *)
Theorem C2_resolver_called_once_unless_session_falsy handler st s :
  scope st !! "session" = Some s ->
  s <> VEmpty ->
  (truthy (heap st) s = true ->
     (authenticate_request handler st).2 = [s]
     /\ authenticate_request handler st =
          match handler s (heap st) with
          | (Raise e, h') => (Raise e, {| scope := scope st; heap := h' |}, [s])
          | (Return u, h') =>
              if truthy h' u then
                (Return {| user := u; auth := s |},
                 {| scope := scope st; heap := h' |}, [s])
              else
                (Raise (NotAuthorizedException "no user correlating to session found"),
                 set_session VEmpty {| scope := scope st; heap := h' |}, [s])
          end)
  /\ (truthy (heap st) s = false ->
        authenticate_request handler st =
          (Raise (NotAuthorizedException "no session data found"),
           set_session VEmpty st, [])).
Proof.
  intros Hs Hne. split.
  - intros Ht. rewrite (authenticate_request_resolves _ _ _ Hs Ht Hne).
    split; [|done].
    destruct (handler s (heap st)) as [[u|e] h']; [|done].
    by destruct (truthy h' u).
  - intros Hf. apply (authenticate_request_no_session _ _ s); auto.
Qed.

(** C3: when the session mapping reaches the resolver and the resolver
    returns a falsy value, whichever it is, authenticate_request sets the
    session entry of the scope to the Empty sentinel and raises
    NotAuthorizedException("no user correlating to session found"); the
    result is the one a resolver answering None would have given. *)
Theorem C3_falsy_user_is_rejected_and_cleared handler st s u h' :
  scope st !! "session" = Some s ->
  truthy (heap st) s = true ->
  s <> VEmpty ->
  handler s (heap st) = (Return u, h') ->
  truthy h' u = false ->
  authenticate_request handler st =
    (Raise (NotAuthorizedException "no user correlating to session found"),
     {| scope := <["session" := VEmpty]> (scope st); heap := h' |}, [s])
  /\ authenticate_request handler st =
       authenticate_request (fun arg h => (Return VNone, (handler arg h).2)) st.
Proof.
  intros Hs Ht Hne Hh Hu.
  rewrite !(authenticate_request_resolves _ _ _ Hs Ht Hne), Hh; simpl.
  by rewrite Hu.
Qed.

(** C4: when the session mapping reaches the resolver and the resolver
    returns a truthy identity, authenticate_request returns the
    AuthenticationResult whose user is that identity and whose auth is the
    session mapping itself, and the scope, its session entry included, is
    left as it was. *)
Theorem C4_truthy_user_is_authenticated handler st s u h' :
  scope st !! "session" = Some s ->
  truthy (heap st) s = true ->
  s <> VEmpty ->
  handler s (heap st) = (Return u, h') ->
  truthy h' u = true ->
  authenticate_request handler st =
    (Return {| user := u; auth := s |}, {| scope := scope st; heap := h' |}, [s])
  /\ scope (authenticate_request handler st).1.2 !! "session" = Some s
  /\ scope (authenticate_request handler st).1.2 !! "session" <> Some VEmpty.
Proof.
  intros Hs Ht Hne Hh Hu.
  rewrite (authenticate_request_resolves _ _ _ Hs Ht Hne), Hh, Hu; simpl.
  repeat split; [done|]. rewrite Hs. congruence.
Qed.

(** C10: authenticate_request leaves every entry of the scope other than
    "session" as it was; the scope changes at all only by "session" becoming
    the Empty sentinel, and only when one of the two rejections is raised;
    when it returns, the scope is unchanged and the auth of the result is the
    value read from the "session" entry, the one argument the resolver was
    called with. *)
Theorem C10_only_the_session_entry_is_written handler st :
  let call := authenticate_request handler st in
  (forall k : string, k <> "session" -> scope call.1.2 !! k = scope st !! k)
  /\ (scope call.1.2 = scope st
      \/ scope call.1.2 = <["session" := VEmpty]> (scope st)
         /\ (call.1.1 = Raise (NotAuthorizedException "no session data found")
             \/ call.1.1 = Raise (NotAuthorizedException "no user correlating to session found")))
  /\ (forall result, call.1.1 = Return result ->
        scope call.1.2 = scope st
        /\ scope st !! "session" = Some (auth result)
        /\ call.2 = [auth result]).
Proof.
  intros call; subst call. rewrite authenticate_request_unfold.
  destruct (scope st !! "session") as [s|] eqn:Hs; simpl.
  2:{ split; [done|]. split; [by left|]. intros ? [=]. }
  destruct (negb (truthy (heap st) s) || is_Empty s); simpl.
  { split; [intros k Hk; by rewrite lookup_insert_ne|].
    split; [right; split; [done|by left]|]. intros ? [=]. }
  destruct (handler s (heap st)) as [[u|e] h']; simpl.
  2:{ split; [done|]. split; [by left|]. intros ? [=]. }
  destruct (truthy h' u); simpl.
  - split; [done|]. split; [by left|]. by intros ? [= <-].
  - split; [intros k Hk; by rewrite lookup_insert_ne|].
    split; [right; split; [done|by right]|]. intros ? [=].
Qed.

End Decision.

(** ** The wrapper and the stack it assembles *)

Section Pipeline.
Context `{!Framework}.
Implicit Types (cfg : SessionAuth) (next : ASGIApp) (a : Starlite)
  (st : pystate) (w : MiddlewareWrapper).








(** *** The stages, one by one *)

Lemma attach_session_returns (base : SessionCookieConfig) st :
  exists st1,
    attach_session base st = (Return tt, st1, [])
    /\ forall k : string, k <> "session" -> scope st1 !! k = scope st !! k.
Proof.
  unfold attach_session, scope_set.
  destruct (load_data base (scope st)); eexists; (split; [done|]);
    intros k Hk; simpl; by rewrite lookup_insert_ne.
Qed.

Lemma attach_session_attaches (base : SessionCookieConfig) st :
  exists v, scope (attach_session base st).1.2 !! "session" = Some v.
Proof.
  unfold attach_session, scope_set.
  destruct (load_data base (scope st)); eexists; simpl; apply lookup_insert_eq.
Qed.

Lemma should_bypass_path excl (sc sc' : gmap string pyval) :
  sc !! "path" = sc' !! "path" ->
  should_bypass excl sc = should_bypass excl sc'.
Proof. intros Hp. unfold should_bypass. by rewrite Hp. Qed.



Lemma authentication_raises excl authenticate (inner : coroutine Response)
    st e st' t :
  should_bypass excl (scope st) = false ->
  authenticate st = (Raise e, st', t) ->
  AbstractAuthenticationMiddleware_call excl authenticate inner st = (Raise e, st', t).
Proof.
  intros Hb Hr. unfold AbstractAuthenticationMiddleware_call.
  rewrite Hb. unfold mbind, coroutine_bind, bind. by rewrite Hr.
Qed.

Lemma translator_catches handlers dbg (inner : coroutine Response) st e st' t :
  inner st = (Raise e, st', t) ->
  ExceptionHandlerMiddleware_call handlers dbg inner st =
    (Return (exception_response handlers dbg e), st', t).
Proof. intros Hr. unfold ExceptionHandlerMiddleware_call. by rewrite Hr. Qed.

Lemma translator_always_responds handlers dbg (inner : coroutine Response) st :
  exists r st' t,
    ExceptionHandlerMiddleware_call handlers dbg inner st = (Return r, st', t).
Proof.
  unfold ExceptionHandlerMiddleware_call.
  destruct (inner st) as [[[r|e] st'] t]; eauto.
Qed.

(** No exception leaves the assembled stack. *)
Lemma assembled_always_responds cfg a next st :
  exists r st' t, run (assembled cfg a next) st = (Return r, st', t).
Proof.
  destruct (attach_session_returns (cookie_config cfg) st) as (st1 & Hattach & _).
  destruct (translator_always_responds
              (default no_exception_handlers (exception_handlers a)) (debug a)
              (run (SessionAuthMiddleware next (exclude cfg) (retrieve_user_handler cfg)))
              st1) as (r & st2 & t & Hr).
  exists (with_session_cookie (session_token (cookie_config cfg) st2) r), st2, t.
  simpl. unfold SessionMiddleware_call, send_with_session, mbind, coroutine_bind, bind.
  rewrite Hattach. simpl in Hr. rewrite Hr. simpl. by rewrite app_nil_r.
Qed.

Lemma default_handler_debug_detail dbg e :
  debug_detail (default_http_exception_handler dbg e) <> None -> dbg = true.
Proof.
  unfold default_http_exception_handler.
  destruct (exn_status_code e =? 500); simpl; [|done].
  by destruct dbg.
Qed.




(** C7 (amended): when authenticate_request raises NotAuthorizedException,
    the exception-handler middleware, which the wrapper places between the
    session middleware and the session-auth middleware, turns it into a
    response and nothing is raised past that stage, for this or for any other
    request; the response is the one made by the handler that the registry
    of the hosting application holds for the exception, and otherwise the
    default one, which has status 401; a default response carries debug
    detail only when the debug flag of the application is set. *)
Theorem C7_rejection_becomes_a_response cfg next a st detail st' t :
  should_bypass (exclude cfg) (scope st) = false ->
  authenticate_request (retrieve_user_handler cfg) st =
    (Raise (NotAuthorizedException detail), st', t) ->
  let handlers := default no_exception_handlers (exception_handlers a) in
  let stage :=
    ExceptionHandlerMiddleware
      (SessionAuthMiddleware next (exclude cfg) (retrieve_user_handler cfg))
      handlers (debug a) in
  let r := exception_response handlers (debug a) (NotAuthorizedException detail) in
  assembled cfg a next = SessionMiddleware stage cfg
  /\ run stage st = (Return r, st', t)
  /\ (forall st1, exists r1 st1' t1, run stage st1 = (Return r1, st1', t1))
  /\ (forall st1, exists r1 st1' t1,
        run (assembled cfg a next) st1 = (Return r1, st1', t1))
  /\ (forall h, handlers (NotAuthorizedException detail) = Some h ->
        r = h (NotAuthorizedException detail))
  /\ (handlers (NotAuthorizedException detail) = None ->
        status_code r = 401 /\ debug_detail r = None)
  /\ (forall e, handlers e = None ->
        debug_detail (exception_response handlers (debug a) e) <> None ->
        debug a = true).
Proof.
  intros Hbypass Hauth handlers stage r.
  split; [done|]. split.
  { simpl. apply translator_catches. by apply authentication_raises. }
  split; [intros st1; apply translator_always_responds|].
  split; [intros st1; apply assembled_always_responds|].
  split; [intros h Hh; subst r; unfold exception_response; by rewrite Hh|].
  split.
  - intros Hnone. subst r. unfold exception_response. by rewrite Hnone.
  - intros e Hnone. unfold exception_response. rewrite Hnone. simpl.
    apply default_handler_debug_detail.
Qed.


End Pipeline.

(** ** OpenAPI metadata *)

Section Metadata.
Context `{!Framework}.

(** Two wrappers that differ in the scheme name of their configuration, and
    in nothing a run depends on, serve every sequence of requests alike. *)
Lemma serve_scheme_name_irrelevant name (w w' : MiddlewareWrapper) requests :
  has_wrapped_middleware w' = has_wrapped_middleware w ->
  config w' = with_scheme_name name (config w) ->
  run (app w') = run (app w) ->
  (serve w' requests).1 = (serve w requests).1.
Proof.
  revert w w'. induction requests as [|st rest IH]; intros w w' Hflag Hcfg Hrun;
    simpl; [done|].
  pose proof (IH w w' Hflag Hcfg Hrun) as IHsame.
  unfold MiddlewareWrapper_call. rewrite Hflag.
  destruct (has_wrapped_middleware w) eqn:Hw; simpl.
  - rewrite Hrun.
    destruct (serve w' rest), (serve w rest); simpl in *. by rewrite IHsame.
  - destruct (scope st !! "app") as [v|].
    2:{ destruct (serve w' rest), (serve w rest); simpl in *. by rewrite IHsame. }
    destruct v;
      try (destruct (serve w' rest), (serve w rest); simpl in *; by rewrite IHsame).
    match goal with
    | |- (let (_, _) := serve ?x' rest in _).1 = (let (_, _) := serve ?x rest in _).1 =>
        assert (Hstack : run (app x') = run (app x))
          by (simpl; rewrite Hcfg; simpl; by rewrite Hrun);
        pose proof (IH x x' eq_refl Hcfg Hstack) as IHnew;
        destruct (serve x' rest), (serve x rest)
    end.
    simpl in *. rewrite Hstack. by rewrite IHnew.
Qed.

(** C9: openapi_components holds exactly one security scheme, under the
    scheme name of the configuration ("sessionCookie" unless one is given),
    of type "apiKey" and located in a cookie; security_requirement maps that
    same name to the empty list and holds nothing else; and a wrapper serves
    every sequence of requests the same whatever the scheme name is. *)
Theorem C9_openapi_metadata (cfg : SessionAuth) :
  let name := openapi_security_scheme_name cfg in
  map_to_list (securitySchemes (openapi_components cfg)) =
    [(name, {| scheme_type := "apiKey";
               scheme_name := "Set-Cookie";
               security_scheme_in := "cookie";
               scheme_description := "Session cookie authentication." |})]
  /\ map_to_list (security_requirement cfg) = [(name, [])]
  /\ (forall base handler excl,
        openapi_security_scheme_name (SessionAuth_init base handler excl None)
          = "sessionCookie")
  /\ (forall name' next requests,
        (serve (middleware (with_scheme_name name' cfg) next) requests).1
          = (serve (middleware cfg next) requests).1).
Proof.
  intros name. split; [apply map_to_list_singleton|].
  split; [apply map_to_list_singleton|]. split; [done|].
  intros name' next requests. by apply (serve_scheme_name_irrelevant name').
Qed.

End Metadata.

(** * The properties on the fixtures of the tests *)

Section Fixtures.
#[local] Existing Instance Tests.framework.



(** C2 on the session of the logged-in user of the tests. *)
Lemma C2_witness :
  let st := Tests.in_session Tests.starlite_app [("id", VStr Tests.user_id)] in
  scope st !! "session" = Some (VRef 2%positive)
  /\ VRef 2%positive <> VEmpty
  /\ truthy (heap st) (VRef 2%positive) = true
  /\ (authenticate_request Tests.retrieve_user_handler st).2 = [VRef 2%positive].
Proof.
  intros st.
  assert (Hs : scope st !! "session" = Some (VRef 2%positive))
    by (vm_compute; reflexivity).
  assert (Hne : VRef 2%positive <> VEmpty) by discriminate.
  assert (Ht : truthy (heap st) (VRef 2%positive) = true)
    by (vm_compute; reflexivity).
  split; [exact Hs|]. split; [exact Hne|]. split; [exact Ht|].
  exact (proj1 (proj1
    (C2_resolver_called_once_unless_session_falsy
       Tests.retrieve_user_handler st _ Hs Hne) Ht)).
Defined.

(** A session that is present, is neither None nor the Empty sentinel, and
    is an empty dictionary: it is rejected and the resolver is not called. *)
Lemma C2_counterexample :
  let st := Tests.in_session Tests.starlite_app [] in
  scope st !! "session" = Some (VRef 2%positive)
  /\ heap st !! 2%positive = Some (ODict [])
  /\ VRef 2%positive <> VNone
  /\ VRef 2%positive <> VEmpty
  /\ authenticate_request Tests.retrieve_user_handler st =
       (Raise (NotAuthorizedException "no session data found"),
        set_session VEmpty st, [])
  /\ (authenticate_request Tests.retrieve_user_handler st).2 <> [VRef 2%positive].
Proof.
  intros st.
  split; [vm_compute; reflexivity|].
  split; [vm_compute; reflexivity|].
  split; [discriminate|]. split; [discriminate|].
  split; [vm_compute; reflexivity|].
  vm_compute. discriminate.
Qed.

(** C3 on the session of another user, for which the resolver of the tests
    returns None. *)
Lemma C3_witness :
  let st := Tests.in_session Tests.starlite_app [("id", VStr "other")] in
  scope st !! "session" = Some (VRef 2%positive)
  /\ truthy (heap st) (VRef 2%positive) = true
  /\ Tests.retrieve_user_handler (VRef 2%positive) (heap st) = (Return VNone, heap st)
  /\ truthy (heap st) VNone = false
  /\ authenticate_request Tests.retrieve_user_handler st =
       (Raise (NotAuthorizedException "no user correlating to session found"),
        {| scope := <["session" := VEmpty]> (scope st); heap := heap st |},
        [VRef 2%positive]).
Proof.
  intros st.
  assert (Hs : scope st !! "session" = Some (VRef 2%positive))
    by (vm_compute; reflexivity).
  assert (Ht : truthy (heap st) (VRef 2%positive) = true)
    by (vm_compute; reflexivity).
  assert (Hh : Tests.retrieve_user_handler (VRef 2%positive) (heap st)
               = (Return VNone, heap st)) by (vm_compute; reflexivity).
  split; [exact Hs|]. split; [exact Ht|]. split; [exact Hh|].
  split; [reflexivity|].
  refine (proj1 (C3_falsy_user_is_rejected_and_cleared
            Tests.retrieve_user_handler st _ VNone (heap st) Hs Ht _ Hh eq_refl)).
  discriminate.
Defined.

(** C4 on the session of the logged-in user of the tests. *)
Lemma C4_witness :
  let st := Tests.in_session Tests.starlite_app [("id", VStr Tests.user_id)] in
  scope st !! "session" = Some (VRef 2%positive)
  /\ truthy (heap st) (VRef 2%positive) = true
  /\ Tests.retrieve_user_handler (VRef 2%positive) (heap st)
       = (Return Tests.user_instance, heap st)
  /\ truthy (heap st) Tests.user_instance = true
  /\ authenticate_request Tests.retrieve_user_handler st =
       (Return {| user := Tests.user_instance; auth := VRef 2%positive |},
        {| scope := scope st; heap := heap st |}, [VRef 2%positive]).
Proof.
  intros st.
  assert (Hs : scope st !! "session" = Some (VRef 2%positive))
    by (vm_compute; reflexivity).
  assert (Ht : truthy (heap st) (VRef 2%positive) = true)
    by (vm_compute; reflexivity).
  assert (Hh : Tests.retrieve_user_handler (VRef 2%positive) (heap st)
               = (Return Tests.user_instance, heap st)) by (vm_compute; reflexivity).
  assert (Hu : truthy (heap st) Tests.user_instance = true)
    by (vm_compute; reflexivity).
  split; [exact Hs|]. split; [exact Ht|]. split; [exact Hh|]. split; [exact Hu|].
  refine (proj1 (C4_truthy_user_is_authenticated
            Tests.retrieve_user_handler st _ _ (heap st) Hs Ht _ Hh Hu)).
  discriminate.
Defined.



(** C7 on the session of another user and the default handlers: 401. *)
Lemma C7_witness :
  let cfg := Tests.session_auth in
  let next := ASGIHandler Tests.get_user_handler in
  let st := Tests.in_session Tests.starlite_app [("id", VStr "other")] in
  let stage :=
    ExceptionHandlerMiddleware
      (SessionAuthMiddleware next (exclude cfg) (retrieve_user_handler cfg))
      no_exception_handlers false in
  should_bypass (exclude cfg) (scope st) = false
  /\ authenticate_request (retrieve_user_handler cfg) st =
       (Raise (NotAuthorizedException "no user correlating to session found"),
        set_session VEmpty st, [VRef 2%positive])
  /\ run stage st =
       (Return {| status_code := 401;
                  body := "no user correlating to session found";
                  debug_detail := None; session_cookie := None |},
        set_session VEmpty st, [VRef 2%positive]).
Proof.
  intros cfg next st stage.
  assert (Hb : should_bypass (exclude cfg) (scope st) = false)
    by (vm_compute; reflexivity).
  assert (Hr : authenticate_request (retrieve_user_handler cfg) st =
                 (Raise (NotAuthorizedException "no user correlating to session found"),
                  set_session VEmpty st, [VRef 2%positive]))
    by (vm_compute; reflexivity).
  split; [exact Hb|]. split; [exact Hr|].
  exact (proj1 (proj2
    (C7_rejection_becomes_a_response cfg next Tests.starlite_app st _ _ _ Hb Hr))).
Defined.

(** The exception-handler stage of the stack assembled for an application
    that registers a handler for the rejection answers with the 302 of that
    handler. *)
Lemma C7_counterexample :
  let cfg := Tests.session_auth in
  let next := ASGIHandler Tests.get_user_handler in
  let st := Tests.in_session Tests.redirecting_app [("id", VStr "other")] in
  let stage :=
    ExceptionHandlerMiddleware
      (SessionAuthMiddleware next (exclude cfg) (retrieve_user_handler cfg))
      (default no_exception_handlers (exception_handlers Tests.redirecting_app))
      (debug Tests.redirecting_app) in
  authenticate_request (retrieve_user_handler cfg) st =
    (Raise (NotAuthorizedException "no user correlating to session found"),
     set_session VEmpty st, [VRef 2%positive])
  /\ assembled cfg Tests.redirecting_app next = SessionMiddleware stage cfg
  /\ (run stage st).1.1 =
       Return {| status_code := 302; body := "/login";
                 debug_detail := None; session_cookie := None |}
  /\ 302 <> 401.
Proof.
  intros cfg next st stage.
  split; [vm_compute; reflexivity|].
  split; [reflexivity|].
  split; [vm_compute; reflexivity|]. discriminate.
Qed.


(** [test_authentication]: 401 before the login, 201 for the login, 200 with
    the session, 204 for the deletion that clears it, 401 afterwards, 201
    for the login of another user, and 401 for that user on the resource of
    the first. *)
Example test_authentication :
  Tests.client (middleware Tests.session_auth (ASGIHandler Tests.route_handlers))
    None Tests.initial_heap Tests.scenario
  = [401; 201; 200; 204; 401; 201; 401].
Proof. vm_compute. reflexivity. Qed.

(** [test_openapi]: the components and the security requirement of a
    configuration built with the default scheme name. *)
Example test_openapi :
  let session_auth :=
    SessionAuth_init {| secret := "0123456789abcdef"; key := "session" |}
      (fun _ h => (Return VNone, h)) None None in
  securitySchemes (openapi_components session_auth) !! "sessionCookie"
    = Some {| scheme_type := "apiKey";
              scheme_name := "Set-Cookie";
              security_scheme_in := "cookie";
              scheme_description := "Session cookie authentication." |}
  /\ security_requirement session_auth !! "sessionCookie" = Some [].
Proof. split; apply lookup_singleton_eq. Qed.

End Fixtures.

(** * Further properties of the decision procedure *)

Section MoreDecision.
Implicit Types (handler : RetrieveUserHandler) (st : pystate) (s u : pyval).

Lemma set_session_twice v st :
  set_session v (set_session v st) = set_session v st.
Proof. unfold set_session; simpl. by rewrite insert_insert_eq. Qed.

Lemma pystate_eta st : {| scope := scope st; heap := heap st |} = st.
Proof. by destruct st. Qed.

(** X1: when the resolver itself raises, whatever it raises (a
    NotAuthorizedException included), authenticate_request lets that
    exception through after the one call, and the session entry of the scope
    is left as it was: it is not replaced by the Empty sentinel. *)
Theorem X1_resolver_exception_passes_without_clearing handler st s e h' :
  scope st !! "session" = Some s ->
  truthy (heap st) s = true ->
  s <> VEmpty ->
  handler s (heap st) = (Raise e, h') ->
  authenticate_request handler st =
    (Raise e, {| scope := scope st; heap := h' |}, [s])
  /\ scope (authenticate_request handler st).1.2 !! "session" = Some s.
Proof.
  intros Hs Ht Hne Hh.
  rewrite (authenticate_request_resolves _ _ _ Hs Ht Hne), Hh. by split.
Qed.

(** X2: a rejection made by authenticate_request is final for the scope:
    after it the session entry is the Empty sentinel, and authenticating the
    same connection again, with any resolver, raises "no session data found"
    without a call to the resolver and without changing the state. *)
Theorem X2_rejected_connection_stays_rejected handler handler' st s :
  scope st !! "session" = Some s ->
  truthy (heap st) s = false \/ s = VEmpty
    \/ (exists u h', handler s (heap st) = (Return u, h') /\ truthy h' u = false) ->
  let st' := (authenticate_request handler st).1.2 in
  scope st' !! "session" = Some VEmpty
  /\ authenticate_request handler' st' =
       (Raise (NotAuthorizedException "no session data found"), st', []).
Proof.
  intros Hs Hrej st'.
  assert (Hst' : exists h, st' = set_session VEmpty {| scope := scope st; heap := h |}).
  { subst st'. rewrite authenticate_request_unfold, Hs.
    destruct (negb (truthy (heap st) s) || is_Empty s) eqn:Hc; simpl.
    - exists (heap st). by rewrite pystate_eta.
    - apply orb_false_elim in Hc as [Ht He].
      destruct Hrej as [Hf | [-> | (u & h' & Hh & Hu)]].
      + by rewrite Hf in Ht.
      + done.
      + rewrite Hh, Hu. simpl. by exists h'. }
  destruct Hst' as [h ->].
  assert (Hempty : scope (set_session VEmpty {| scope := scope st; heap := h |})
                     !! "session" = Some VEmpty) by apply lookup_insert_eq.
  split; [done|].
  rewrite (authenticate_request_no_session handler' _ VEmpty Hempty) by (by right).
  by rewrite set_session_twice.
Qed.

(** X3: in one run authenticate_request calls the resolver at most once, and
    only with the value of the session entry when that value is truthy and is
    not the Empty sentinel: an empty or cleared session is never handed to
    the resolver. *)
Theorem X3_resolver_sees_only_a_live_session handler st :
  let calls := (authenticate_request handler st).2 in
  calls = []
  \/ exists s, calls = [s]
       /\ scope st !! "session" = Some s
       /\ truthy (heap st) s = true
       /\ s <> VEmpty.
Proof.
  intros calls; subst calls. rewrite authenticate_request_unfold.
  destruct (scope st !! "session") as [s|] eqn:Hs; simpl; [|by left].
  destruct (negb (truthy (heap st) s) || is_Empty s) eqn:Hc; simpl; [by left|].
  apply orb_false_elim in Hc as [Ht He].
  right. exists s.
  assert (truthy (heap st) s = true) by (by destruct (truthy (heap st) s)).
  assert (s <> VEmpty) by (intros ->; done).
  destruct (handler s (heap st)) as [[u|e] h']; simpl; [|done].
  by destruct (truthy h' u).
Qed.

(** X4: authenticate_request returns a result only if the session entry was
    truthy and not the Empty sentinel and the resolver, called with it,
    returned a value that is truthy in the heap it left: the user of the
    result is that value, the auth is the session value, and the scope is
    unchanged. *)
Theorem X4_result_comes_from_the_resolver handler st result st' t :
  authenticate_request handler st = (Return result, st', t) ->
  exists s,
    scope st !! "session" = Some s
    /\ truthy (heap st) s = true
    /\ s <> VEmpty
    /\ handler s (heap st) = (Return (user result), heap st')
    /\ truthy (heap st') (user result) = true
    /\ auth result = s
    /\ scope st' = scope st
    /\ t = [s].
Proof.
  rewrite authenticate_request_unfold.
  destruct (scope st !! "session") as [s|] eqn:Hs; simpl; [|intros [=]].
  destruct (negb (truthy (heap st) s) || is_Empty s) eqn:Hc; simpl; [intros [=]|].
  apply orb_false_elim in Hc as [Ht He].
  destruct (handler s (heap st)) as [[u|e] h'] eqn:Hh; simpl; [|intros [=]].
  destruct (truthy h' u) eqn:Hu; simpl; [|intros [=]].
  intros [= <- <- <-]. exists s; simpl.
  repeat split; try done.
  - by destruct (truthy (heap st) s).
  - by intros ->.
Qed.

(** X5: authenticate_request changes the heap only through the resolver: the
    heap it leaves is the one it received when the resolver was not called,
    and the one the resolver left otherwise; with a resolver that leaves
    every heap as it found it, the heap is unchanged. *)
Theorem X5_heap_changes_only_through_the_resolver handler st :
  let call := authenticate_request handler st in
  heap call.1.2 =
    match call.2 with
    | [] => heap st
    | s :: _ => (handler s (heap st)).2
    end
  /\ ((forall arg h, (handler arg h).2 = h) -> heap call.1.2 = heap st).
Proof.
  intros call; subst call. rewrite authenticate_request_unfold.
  destruct (scope st !! "session") as [s|] eqn:Hs; simpl; [|done].
  destruct (negb (truthy (heap st) s) || is_Empty s); simpl; [done|].
  destruct (handler s (heap st)) as [[u|e] h'] eqn:Hh; simpl;
    [destruct (truthy h' u); simpl|];
    rewrite ?Hh; simpl; (split; [done|]);
    intros Hro; specialize (Hro s (heap st)); by rewrite Hh in Hro.
Qed.

(** X6: the decision reads nothing of the scope but its session entry: on
    two connections with the same session entry and the same heap, whatever
    their other entries (a user or auth entry set beforehand, the path, the
    application), authenticate_request has the same outcome, makes the same
    call to the resolver, and leaves the same heap and session entry. *)
Theorem X6_decision_reads_only_the_session_entry handler st1 st2 :
  scope st1 !! "session" = scope st2 !! "session" ->
  heap st1 = heap st2 ->
  let c1 := authenticate_request handler st1 in
  let c2 := authenticate_request handler st2 in
  c1.1.1 = c2.1.1
  /\ c1.2 = c2.2
  /\ heap c1.1.2 = heap c2.1.2
  /\ scope c1.1.2 !! "session" = scope c2.1.2 !! "session".
Proof.
  intros Hs Hh c1 c2; subst c1 c2. rewrite !authenticate_request_unfold.
  rewrite <- Hs, <- Hh.
  destruct (scope st1 !! "session") as [s|] eqn:Hs1; simpl.
  2:{ repeat split; try done. by rewrite Hs1, <- Hs. }
  destruct (negb (truthy (heap st1) s) || is_Empty s); simpl.
  { repeat split; try done. by rewrite !lookup_insert_eq. }
  destruct (handler s (heap st1)) as [[u|e] h']; simpl.
  - destruct (truthy h' u); simpl; repeat split; try done.
    + by rewrite Hs1, <- Hs.
    + by rewrite !lookup_insert_eq.
  - repeat split; try done. by rewrite Hs1, <- Hs.
Qed.

(** X7: with the resolver of the tests, a connection whose session mapping
    has an "id" is authenticated as the user of the tests exactly when that
    id is the id of the user; with any other id it is rejected with "no user
    correlating to session found" and its session entry becomes the Empty
    sentinel. *)
Theorem X7_test_resolver_admits_only_the_matching_id st l items v :
  scope st !! "session" = Some (VRef l) ->
  heap st !! l = Some (ODict items) ->
  Tests.dict_get "id" items = Some v ->
  heap st !! Tests.user_loc = Some (OInstance "User" true) ->
  authenticate_request Tests.retrieve_user_handler st =
    if Tests.is_str Tests.user_id v then
      (Return {| user := Tests.user_instance; auth := VRef l |}, st, [VRef l])
    else
      (Raise (NotAuthorizedException "no user correlating to session found"),
       set_session VEmpty st, [VRef l]).
Proof.
  intros Hs Hl Hid Hu.
  assert (Ht : truthy (heap st) (VRef l) = true).
  { simpl. rewrite Hl. simpl. destruct items; [done|]. by rewrite bool_decide_eq_false_2. }
  rewrite (authenticate_request_resolves _ _ _ Hs Ht) by done.
  unfold Tests.retrieve_user_handler. rewrite Hl, Hid.
  destruct (Tests.is_str Tests.user_id v); simpl.
  - unfold Tests.user_instance. simpl. rewrite Hu. simpl. by rewrite pystate_eta.
  - by rewrite pystate_eta.
Qed.

(** X8: the security requirement names exactly the scheme that
    openapi_components declares, and the two depend on the configuration
    through the scheme name alone: two configurations have the same
    components exactly when they have the same scheme name, whatever their
    secret, resolver and exclusion patterns. *)
Theorem X8_requirement_names_the_declared_scheme (cfg cfg' : SessionAuth) :
  dom (security_requirement cfg) = dom (securitySchemes (openapi_components cfg))
  /\ (openapi_components cfg = openapi_components cfg'
      <-> openapi_security_scheme_name cfg = openapi_security_scheme_name cfg')
  /\ (security_requirement cfg = security_requirement cfg'
      <-> openapi_security_scheme_name cfg = openapi_security_scheme_name cfg').
Proof.
  split; [unfold security_requirement, openapi_components; simpl;
          rewrite dom_singleton_L; apply dom_singleton_L|].
  split; split.
  - intros Heq.
    assert (Hl : securitySchemes (openapi_components cfg)
                   !! openapi_security_scheme_name cfg'
                 = securitySchemes (openapi_components cfg')
                   !! openapi_security_scheme_name cfg') by (by rewrite Heq).
    unfold openapi_components in Hl; simpl in Hl.
    rewrite lookup_singleton_eq in Hl.
    apply lookup_singleton_Some in Hl as [Hn _]. done.
  - intros Hn. unfold openapi_components. by rewrite Hn.
  - intros Heq.
    assert (Hl : security_requirement cfg !! openapi_security_scheme_name cfg'
                 = security_requirement cfg' !! openapi_security_scheme_name cfg')
      by (by rewrite Heq).
    unfold security_requirement, SecurityRequirement in Hl.
    rewrite lookup_singleton_eq in Hl.
    apply lookup_singleton_Some in Hl as [Hn _]. done.
  - intros Hn. unfold security_requirement. by rewrite Hn.
Qed.

End MoreDecision.

(** * Further properties of the wrapper *)

Section MoreWrapper.
Context `{!Framework}.
Implicit Types (w : MiddlewareWrapper) (st : pystate).



End MoreWrapper.

(** * The further properties on the fixtures of the tests *)

Section MoreFixtures.
#[local] Existing Instance Tests.framework.

(** X1 on a session without an "id": the resolver of the tests raises
    KeyError, and the session stays. *)
Lemma X1_witness :
  let st := Tests.in_session Tests.starlite_app [("name", VStr "Moishe Zuchmir")] in
  scope st !! "session" = Some (VRef 2%positive)
  /\ truthy (heap st) (VRef 2%positive) = true
  /\ Tests.retrieve_user_handler (VRef 2%positive) (heap st)
       = (Raise (KeyError "id"), heap st)
  /\ authenticate_request Tests.retrieve_user_handler st =
       (Raise (KeyError "id"), {| scope := scope st; heap := heap st |},
        [VRef 2%positive])
  /\ scope (authenticate_request Tests.retrieve_user_handler st).1.2 !! "session"
       = Some (VRef 2%positive).
Proof.
  intros st.
  assert (Hs : scope st !! "session" = Some (VRef 2%positive))
    by (vm_compute; reflexivity).
  assert (Ht : truthy (heap st) (VRef 2%positive) = true)
    by (vm_compute; reflexivity).
  assert (Hh : Tests.retrieve_user_handler (VRef 2%positive) (heap st)
               = (Raise (KeyError "id"), heap st)) by (vm_compute; reflexivity).
  split; [exact Hs|]. split; [exact Ht|]. split; [exact Hh|].
  refine (X1_resolver_exception_passes_without_clearing
            Tests.retrieve_user_handler st _ _ (heap st) Hs Ht _ Hh).
  discriminate.
Defined.

(** X2 on the session of another user: rejected once, then rejected again
    by a resolver that would admit anyone. *)
Lemma X2_witness :
  let st := Tests.in_session Tests.starlite_app [("id", VStr "other")] in
  let admit_all : RetrieveUserHandler := fun _ h => (Return (VBool true), h) in
  let st' := (authenticate_request Tests.retrieve_user_handler st).1.2 in
  scope st !! "session" = Some (VRef 2%positive)
  /\ Tests.retrieve_user_handler (VRef 2%positive) (heap st) = (Return VNone, heap st)
  /\ scope st' !! "session" = Some VEmpty
  /\ authenticate_request admit_all st' =
       (Raise (NotAuthorizedException "no session data found"), st', []).
Proof.
  intros st admit_all st'.
  assert (Hs : scope st !! "session" = Some (VRef 2%positive))
    by (vm_compute; reflexivity).
  assert (Hh : Tests.retrieve_user_handler (VRef 2%positive) (heap st)
               = (Return VNone, heap st)) by (vm_compute; reflexivity).
  split; [exact Hs|]. split; [exact Hh|].
  refine (X2_rejected_connection_stays_rejected
            Tests.retrieve_user_handler admit_all st _ Hs _).
  right; right. exists VNone, (heap st). split; [exact Hh|reflexivity].
Defined.

(** X4 on the session of the logged-in user of the tests. *)
Lemma X4_witness :
  let st := Tests.in_session Tests.starlite_app [("id", VStr Tests.user_id)] in
  let result := {| user := Tests.user_instance; auth := VRef 2%positive |} in
  authenticate_request Tests.retrieve_user_handler st =
    (Return result, st, [VRef 2%positive])
  /\ exists s,
       scope st !! "session" = Some s
       /\ truthy (heap st) s = true
       /\ s <> VEmpty
       /\ Tests.retrieve_user_handler s (heap st) = (Return (user result), heap st)
       /\ truthy (heap st) (user result) = true
       /\ auth result = s
       /\ scope st = scope st
       /\ [VRef 2%positive] = [s].
Proof.
  intros st result.
  assert (Hr : authenticate_request Tests.retrieve_user_handler st =
                 (Return result, st, [VRef 2%positive]))
    by (vm_compute; reflexivity).
  split; [exact Hr|].
  exact (X4_result_comes_from_the_resolver
           Tests.retrieve_user_handler st result st _ Hr).
Defined.

(** X6 on the session of another user, with and without a user entry set in
    the scope beforehand. *)
Lemma X6_witness :
  let st1 := Tests.in_session Tests.starlite_app [("id", VStr "other")] in
  let st2 := {| scope := <["user" := Tests.user_instance]> (scope st1);
                heap := heap st1 |} in
  scope st1 !! "session" = scope st2 !! "session"
  /\ heap st1 = heap st2
  /\ (authenticate_request Tests.retrieve_user_handler st1).1.1
       = (authenticate_request Tests.retrieve_user_handler st2).1.1
  /\ (authenticate_request Tests.retrieve_user_handler st2).1.1
       = Raise (NotAuthorizedException "no user correlating to session found").
Proof.
  intros st1 st2.
  assert (Hs : scope st1 !! "session" = scope st2 !! "session")
    by (vm_compute; reflexivity).
  assert (Hh : heap st1 = heap st2) by reflexivity.
  split; [exact Hs|]. split; [exact Hh|].
  pose proof (X6_decision_reads_only_the_session_entry
                Tests.retrieve_user_handler st1 st2 Hs Hh) as (Hsame & _).
  split; [exact Hsame|]. vm_compute; reflexivity.
Defined.

(** X7 on the session of another user. *)
Lemma X7_witness :
  let st := Tests.in_session Tests.starlite_app [("id", VStr "other")] in
  scope st !! "session" = Some (VRef 2%positive)
  /\ heap st !! 2%positive = Some (ODict [("id", VStr "other")])
  /\ Tests.dict_get "id" [("id", VStr "other")] = Some (VStr "other")
  /\ heap st !! Tests.user_loc = Some (OInstance "User" true)
  /\ authenticate_request Tests.retrieve_user_handler st =
       (Raise (NotAuthorizedException "no user correlating to session found"),
        set_session VEmpty st, [VRef 2%positive]).
Proof.
  intros st.
  assert (Hs : scope st !! "session" = Some (VRef 2%positive))
    by (vm_compute; reflexivity).
  assert (Hl : heap st !! 2%positive = Some (ODict [("id", VStr "other")]))
    by (vm_compute; reflexivity).
  assert (Hu : heap st !! Tests.user_loc = Some (OInstance "User" true))
    by (vm_compute; reflexivity).
  split; [exact Hs|]. split; [exact Hl|]. split; [reflexivity|]. split; [exact Hu|].
  exact (X7_test_resolver_admits_only_the_matching_id
           st _ _ (VStr "other") Hs Hl eq_refl Hu).
Defined.


End MoreFixtures.
